(** * The request-to-prediction pipeline of [model_predictor.py]

    A shallow embedding of [ModelPredictor] ([__init__], [detect_drift],
    [predict], [save_request_data]) together with the library calls the
    pipeline goes through: [str.strip], [os.path.join], the [pd.DataFrame]
    constructor, [DataFrame.to_parquet], [random.choice] and [logging.info].

    Python exceptions are values of [Exception]; a method is a function from
    a state to an outcome and a new state, so that whatever was done before
    a [raise] stays done. *)

From Stdlib Require Import ZArith Ascii String.
From stdpp Require Import gmap strings list fin_maps pretty.

Local Open Scope Z_scope.
Local Open Scope string_scope.

(** ** Strings: [str.strip] and [os.path.join]

    A [string] stands for a Python [str] whose code points are below 256,
    one [ascii] per code point. *)

(** [str.isspace] on one code point below 256: TAB..CR, FS..US, space,
    NEL and NBSP. *)
Definition isspace (c : ascii) : bool :=
  let n := nat_of_ascii c in
  ((9 <=? n)%nat && (n <=? 13)%nat) || ((28 <=? n)%nat && (n <=? 32)%nat)
  || (n =? 133)%nat || (n =? 160)%nat.

Fixpoint lstrip (s : string) : string :=
  match s with
  | String c s' => if isspace c then lstrip s' else s
  | EmptyString => EmptyString
  end.

Definition rstrip (s : string) : string := String.rev (lstrip (String.rev s)).

(** [s.strip()] *)
Definition strip (s : string) : string := rstrip (lstrip s).

(** Truth value of a [str]: non-empty. *)
Definition truthy (s : string) : bool :=
  match s with EmptyString => false | String _ _ => true end.

Definition startswith_sep (s : string) : bool :=
  match s with String c _ => Ascii.eqb c "/" | EmptyString => false end.

Fixpoint endswith_sep (s : string) : bool :=
  match s with
  | EmptyString => false
  | String c EmptyString => Ascii.eqb c "/"
  | String _ s' => endswith_sep s'
  end.

(** One round of the loop of [posixpath.join]. *)
Definition join_step (path b : string) : string :=
  if startswith_sep b then b
  else if negb (truthy path) || endswith_sep path then path ++ b
  else path ++ "/" ++ b.

(** [os.path.join(a, *p)] on a POSIX host. *)
Definition os_path_join (a : string) (p : list string) : string :=
  fold_left join_step p a.

(** [s.replace(old, new)] for one-character [old] and [new]. *)
Fixpoint replace_char (old new : ascii) (s : string) : string :=
  match s with
  | EmptyString => EmptyString
  | String c s' =>
      String (if Ascii.eqb c old then new else c) (replace_char old new s')
  end.

(** ** Values and tables *)

(** A JSON scalar as it sits in a cell of [rows]; floating-point cells are
    outside the model. *)
Inductive Scalar : Type :=
  | SNull
  | SBool (b : bool)
  | SInt (z : Z)
  | SStr (s : string).

Global Instance Scalar_eq_dec : EqDecision Scalar.
Proof. solve_decision. Defined.

Definition Scalar_to_sum (v : Scalar) : unit + bool + Z + string :=
  match v with
  | SNull => inl (inl (inl tt))
  | SBool b => inl (inl (inr b))
  | SInt z => inl (inr z)
  | SStr s => inr s
  end.

Definition Scalar_of_sum (x : unit + bool + Z + string) : Scalar :=
  match x with
  | inl (inl (inl _)) => SNull
  | inl (inl (inr b)) => SBool b
  | inl (inr z) => SInt z
  | inr s => SStr s
  end.

Global Instance Scalar_countable : Countable Scalar.
Proof.
  apply (inj_countable' Scalar_to_sum Scalar_of_sum).
  intros []; reflexivity.
Defined.

(** [class Data(BaseModel)]: the request body. [rows] is an array of
    arrays of scalars. *)
Record Data : Type := mkData {
  data_id : string;
  data_rows : list (list Scalar);
  data_columns : list string;
}.

(** A [pd.DataFrame] with the default [RangeIndex]: a header and the rows,
    each row holding one cell per column. *)
Record DataFrame : Type := mkDataFrame {
  df_columns : list string;
  df_rows : list (list Scalar);
}.

Global Instance DataFrame_eq_dec : EqDecision DataFrame.
Proof. solve_decision. Defined.

(** The exceptions the pipeline can raise. A [ValidationError] names the
    missing column, or no column when it is the shape that is wrong. *)
Inductive Exception : Type :=
  | KeyError (key : string)
  | ValueError (passed had : nat)
  | ValidationError (missing : option string)
  | OSError (path : string)
  | FileNotFoundError (path : string)
  | RuntimeError (msg : string).

Global Instance Exception_eq_dec : EqDecision Exception.
Proof. solve_decision. Defined.

(** Width of the object array pandas builds from a list of lists: the
    length of the longest row. *)
Definition max_width (rows : list (list Scalar)) : nat :=
  foldr (fun r k => Nat.max (length r) k) 0%nat rows.

(** Shorter rows are filled up with missing values. *)
Definition pad_row (k : nat) (r : list Scalar) : list Scalar :=
  r ++ replicate (k - length r) SNull.

(** [pd.DataFrame(rows, columns=columns)] for a list of lists: no rows
    give an empty frame under the header; otherwise the rows are laid out
    in an array as wide as the longest one and the header must have that
    many names ("N columns passed, passed data had K columns"). *)
Definition pd_DataFrame (rows : list (list Scalar)) (columns : list string)
  : Exception + DataFrame :=
  match rows with
  | [] => inr (mkDataFrame columns [])
  | _ :: _ =>
      let k := max_width rows in
      if decide (length columns = k)
      then inr (mkDataFrame columns (map (pad_row k) rows))
      else inl (ValueError (length columns) k)
  end.

(** ** The feature transformer *)

(** Column name to (category value to integer code). *)
Abbreviation CategoryIndex := (gmap string (gmap Scalar Z)).

(** The per-problem descriptor, with the two fields [predict] reads. *)
Record ProblemConfig : Type := mkProblemConfig {
  categorical_cols : list string;
  captured_data_dir : string;
}.

(** The reserved code of a category the index has not seen. *)
Definition fallback_code : Z := -1.

Definition encode_cell (codes : gmap Scalar Z) (v : Scalar) : Scalar :=
  SInt (default fallback_code (codes !! v)).

(** One row, cell by cell along the header: a cell under a categorical
    column becomes its code, any other cell passes through. A column the
    index has no entry for has seen no category at all. *)
Fixpoint encode_row (cols cats : list string) (index : CategoryIndex)
    (row : list Scalar) : list Scalar :=
  match cols, row with
  | c :: cols', v :: row' =>
      (if bool_decide (c ∈ cats)
       then encode_cell (default ∅ (index !! c)) v
       else v) :: encode_row cols' cats index row'
  | _, _ => row
  end.

(** The first declared categorical column that the header lacks. *)
Definition missing_col (cats cols : list string) : option string :=
  list_find (fun c => c ∉ cols) cats ≫= (fun p => Some p.2).

Definition shape_ok (df : DataFrame) : bool :=
  forallb (fun r => Nat.eqb (length r) (length (df_columns df))) (df_rows df).

Module RawDataProcessor1.
(** Modelled from the spec: [RawDataProcessor.apply_category_features] of
    [raw_data_processor1.py], which is not among the sources. Section 4.1:
    a [ValidationError] when a declared categorical column is missing from
    the raw table or when a row does not have one cell per column;
    otherwise every cell of a categorical column is replaced by its code
    from the index (the fallback code when the value is not in the index),
    every other cell is unchanged, and rows keep their number and order. *)
Definition apply_category_features (raw_df : DataFrame)
    (categorical_cols : list string) (category_index : CategoryIndex)
  : Exception + DataFrame :=
  match missing_col categorical_cols (df_columns raw_df) with
  | Some c => inl (ValidationError (Some c))
  | None =>
      if shape_ok raw_df
      then inr (mkDataFrame (df_columns raw_df)
                  (map (encode_row (df_columns raw_df) categorical_cols
                          category_index) (df_rows raw_df)))
      else inl (ValidationError None)
  end.
End RawDataProcessor1.

Module RawDataProcessor2.
(** Modelled from the spec: [RawDataProcessor.apply_category_features] of
    [raw_data_processor2.py], which is not among the sources; the spec has
    a single transformer contract (section 4.1) for every problem. *)
Definition apply_category_features :=
  RawDataProcessor1.apply_category_features.
End RawDataProcessor2.

(** ** Exceptions and state *)

(** A computation over a state [S] that returns an [A] or raises. *)
Definition Py (S A : Type) : Type := S -> (Exception + A) * S.

Global Instance Py_ret {S} : MRet (Py S) := fun _ a s => (inr a, s).

Global Instance Py_bind {S} : MBind (Py S) := fun _ _ f m s =>
  match m s with
  | (inr a, s') => f a s'
  | (inl e, s') => (inl e, s')
  end.

Definition raise {S A} (e : Exception) : Py S A := fun s => (inl e, s).

(** The outcome of a call that touches no state. *)
Definition pure_call {S A} (r : Exception + A) : Py S A := fun s => (r, s).

(** [d[k]] on a dict. *)
Definition getitem {S V} (d : gmap string V) (k : string) : Py S V :=
  match d !! k with
  | Some v => mret v
  | None => raise (KeyError k)
  end.

(** ** The world outside the process *)

(** A loaded model: [Model.predict], which returns the predictions for a
    feature table or raises. *)
Abbreviation Model := (DataFrame -> Exception + list Scalar).

(** The parsed YAML descriptor of one problem. *)
Record ModelConfig : Type := mkModelConfig {
  phase_id : string;
  prob_id : string;
  model_name : string;
  model_version : Z;
}.

Inductive LogRecord : Type :=
  | LogModelConfig (cfg : ModelConfig)
  | LogPredictionTakes (run_time : Z).

(** The calls [predict] makes to its collaborators, in the order made. *)
Inductive Event : Type :=
  | CallTransform
  | CallToParquet (path : string)
  | CallModelPredict (prob : string)
  | CallDetectDrift.

Global Instance Event_eq_dec : EqDecision Event.
Proof. solve_decision. Defined.

(** [files] is the capture store (path to stored table), [write_error]
    tells what a write of a table at a path raises, if anything, [rng]
    holds the draws the random generator will deliver, [clock] is the time
    in ms, [log] the records given to [logging] and [trace] the history of
    calls. *)
Record World : Type := mkWorld {
  files : gmap string DataFrame;
  write_error : string -> DataFrame -> option Exception;
  rng : nat -> nat;
  clock : Z;
  log : list LogRecord;
  trace : list Event;
}.

Definition set_files (f : gmap string DataFrame) (w : World) : World :=
  mkWorld f (write_error w) (rng w) (clock w) (log w) (trace w).
Definition set_rng (r : nat -> nat) (w : World) : World :=
  mkWorld (files w) (write_error w) r (clock w) (log w) (trace w).
Definition set_clock (t : Z) (w : World) : World :=
  mkWorld (files w) (write_error w) (rng w) t (log w) (trace w).
Definition set_log (l : list LogRecord) (w : World) : World :=
  mkWorld (files w) (write_error w) (rng w) (clock w) l (trace w).
Definition set_trace (t : list Event) (w : World) : World :=
  mkWorld (files w) (write_error w) (rng w) (clock w) (log w) t.

Definition record_call (e : Event) : Py World unit :=
  fun w => (inr tt, set_trace (trace w ++ [e]) w).

(** [logging.info] *)
Definition logging_info (r : LogRecord) : Py World unit :=
  fun w => (inr tt, set_log (log w ++ [r]) w).

(** [time.time()], in ms. *)
Definition time_time : Py World Z := fun w => (inr (clock w), w).

(** [time.sleep(ms / 1000)] *)
Definition time_sleep (ms : Z) : Py World unit :=
  fun w => (inr tt, set_clock (clock w + ms) w).

(** [random.choice(seq)]: an [IndexError] on an empty sequence, otherwise
    the element at the index the generator draws below [len(seq)]. *)
Definition random_choice {A} (seq : list A) : Py World A :=
  fun w =>
    match seq !! (rng w 0 mod length seq)%nat with
    | Some x => (inr x, set_rng (fun n => rng w (S n)) w)
    | None => (inl (RuntimeError "IndexError"), w)
    end.

(** A write to the capture store: the table replaces whatever the store
    holds at [path], unless the write raises (an [OSError] for a missing
    or read-only directory, an error of the serializer for a table it
    cannot store). *)
Definition write_file (df : DataFrame) (path : string) : Py World unit :=
  fun w =>
    match write_error w path df with
    | None => (inr tt, set_files (<[path := df]> (files w)) w)
    | Some e => (inl e, w)
    end.

(** [df.to_parquet(path, index=False)] *)
Definition to_parquet (df : DataFrame) (path : string) : Py World unit :=
  record_call (CallToParquet path);;
  write_file df path.

(** ** The service *)

Record ModelPredictor : Type := mkModelPredictor {
  model : gmap string Model;
  config : gmap string ModelConfig;
  category_index : gmap string CategoryIndex;
  prob_config : gmap string ProblemConfig;
}.

Record State : Type := mkState {
  self : ModelPredictor;
  world : World;
}.

(** Run a computation on the world, leaving [self] alone. *)
Definition in_world {A} (m : Py World A) : Py State A :=
  fun st => let (r, w) := m (world st) in (r, mkState (self st) w).

(** Read an attribute of [self]. *)
Definition self_attr {A} (f : ModelPredictor -> A) : Py State A :=
  fun st => (inr (f (self st)), st).

Record PredictionResult : Type := mkPredictionResult {
  res_id : string;
  predictions : list Scalar;
  drift : Z;
}.

(** What startup reads from outside: the YAML files by path, the models of
    the registry by URI, and the two loaders of [problem_config.py] and
    [raw_data_processor1.py], which are not among the sources. *)
Record Artifacts : Type := mkArtifacts {
  yaml_files : gmap string ModelConfig;
  create_prob_config : string -> string -> Exception + ProblemConfig;
  load_category_index : ProblemConfig -> Exception + CategoryIndex;
  mlflow_models : gmap string Model;
}.

Definition config_file_path_specific : gmap string string :=
  <["prob-1" := "prob-1/model-1.yaml"]>
    (<["prob-2" := "prob-2/model-1.yaml"]> ∅).

(** [open(path, "r")] followed by [yaml.safe_load]. *)
Definition open_yaml {S} (env : Artifacts) (path : string) : Py S ModelConfig :=
  match yaml_files env !! path with
  | Some cfg => mret cfg
  | None => raise (FileNotFoundError path)
  end.

(** [mlflow.pyfunc.load_model(uri)] *)
Definition load_model {S} (env : Artifacts) (uri : string) : Py S Model :=
  match mlflow_models env !! uri with
  | Some m => mret m
  | None => raise (RuntimeError uri)
  end.

(** The body of the loop of [__init__] for one problem. *)
Definition init_prob (env : Artifacts) (config_file_path : string)
    (s : ModelPredictor) (prob : string) : Py World ModelPredictor :=
  rel ← getitem config_file_path_specific prob;
  cfg ← open_yaml env (os_path_join config_file_path [rel]);
  logging_info (LogModelConfig cfg);;
  pc ← pure_call (create_prob_config env (phase_id cfg) (prob_id cfg));
  ci ← pure_call (load_category_index env pc);
  let model_uri :=
    os_path_join "models:/" [model_name cfg; pretty (model_version cfg)] in
  let model_uri := replace_char "\" "/" model_uri in
  m ← load_model env model_uri;
  mret (mkModelPredictor (<[prob := m]> (model s)) (<[prob := cfg]> (config s))
          (<[prob := ci]> (category_index s)) (<[prob := pc]> (prob_config s))).

Fixpoint for_each {S A B} (f : A -> B -> Py S A) (a : A) (l : list B)
  : Py S A :=
  match l with
  | [] => mret a
  | b :: l' => a' ← f a b; for_each f a' l'
  end.

(** [ModelPredictor.__init__]: four empty dicts, filled for ["prob-1"]. *)
Definition init (env : Artifacts) (config_file_path : string)
  : Py World ModelPredictor :=
  for_each (init_prob env config_file_path)
    (mkModelPredictor ∅ ∅ ∅ ∅) ["prob-1"].

(** [ModelPredictor.detect_drift]: a sleep of 20 ms and a random flag; the
    feature table is not looked at. *)
Definition detect_drift (feature_df : DataFrame) : Py State Z :=
  in_world (record_call CallDetectDrift;;
            time_sleep 20;;
            random_choice [0; 1]).

Section Capture.

(** [pandas.util.hash_pandas_object]: one unsigned 64-bit hash per row. *)
Variable hash_pandas_object : DataFrame -> list Z.

(** [Series.sum()] on [uint64]: the sum wraps around at 2^64. *)
Definition uint64_sum (l : list Z) : Z :=
  foldr (fun h acc => (h + acc) mod 2 ^ 64) 0 l.

(** The value bound to [filename] in [save_request_data], as the f-string
    prints it. *)
Definition filename (feature_df : DataFrame) (data_id : string) : string :=
  if truthy (strip data_id) then data_id
  else pretty (uint64_sum (hash_pandas_object feature_df)).

Definition output_file_path (feature_df : DataFrame)
    (captured_data_dir data_id : string) : string :=
  os_path_join captured_data_dir [filename feature_df data_id ++ ".parquet"].

(** [ModelPredictor.save_request_data] *)
Definition save_request_data (feature_df : DataFrame)
    (captured_data_dir data_id : string) : Py World string :=
  let path := output_file_path feature_df captured_data_dir data_id in
  to_parquet feature_df path;;
  mret path.

(** Lines 76 to 88 of [predict], under its comment "preprocess": the raw
    table is built, then the branch on [prob] picks the processor and reads
    the problem's descriptor and category index off [self]. *)
Definition preprocess (data : Data) (prob : string) : Py State DataFrame :=
  raw_df ← pure_call (pd_DataFrame (data_rows data) (data_columns data));
  if decide (prob = "prob-1") then
    pc ← self_attr prob_config ≫= (fun d => getitem d prob);
    ci ← self_attr category_index ≫= (fun d => getitem d prob);
    in_world (record_call CallTransform);;
    pure_call (RawDataProcessor1.apply_category_features raw_df
                 (categorical_cols pc) ci)
  else
    pc ← self_attr prob_config ≫= (fun d => getitem d prob);
    ci ← self_attr category_index ≫= (fun d => getitem d prob);
    in_world (record_call CallTransform);;
    pure_call (RawDataProcessor2.apply_category_features raw_df
                 (categorical_cols pc) ci).

(** [ModelPredictor.predict], for the drift detector that
    [self.detect_drift] resolves to. *)
Definition predict_with (detect : DataFrame -> Py State Z)
    (data : Data) (prob : string) : Py State PredictionResult :=
  start_time ← in_world time_time;
  feature_df ← preprocess data prob;
  pc ← self_attr prob_config ≫= (fun d => getitem d prob);
  in_world (save_request_data feature_df (captured_data_dir pc)
              (data_id data));;
  m ← self_attr model ≫= (fun d => getitem d prob);
  prediction ← in_world (record_call (CallModelPredict prob);;
                         pure_call (m feature_df));
  is_drifted ← detect feature_df;
  end_time ← in_world time_time;
  let run_time := end_time - start_time in
  in_world (logging_info (LogPredictionTakes run_time));;
  mret (mkPredictionResult (data_id data) prediction is_drifted).

(** [predict] on a plain [ModelPredictor]. *)
Definition predict (data : Data) (prob : string) : Py State PredictionResult :=
  predict_with detect_drift data prob.

End Capture.

(** The calls of one complete request, in order. *)
Definition pipeline (path prob : string) : list Event :=
  [CallTransform; CallToParquet path; CallModelPredict prob; CallDetectDrift].

(** A request is valid when every row has one cell per column. *)
Definition valid_request (data : Data) : Prop :=
  Forall (fun r => length r = length (data_columns data)) (data_rows data).

(** A model that returns one prediction per row of its input. *)
Definition one_per_row (m : Model) : Prop :=
  forall df preds, m df = inr preds -> length preds = length (df_rows df).

(** ** A sample deployment

    One problem, one categorical column, a model that echoes the last
    column, and the request of the end-to-end example of the spec. *)

Definition sample_config : ModelConfig :=
  mkModelConfig "phase-1" "prob-1" "clf" 1.

Definition sample_prob_config : ProblemConfig :=
  mkProblemConfig ["cat"] "data/captured".

Definition sample_index : CategoryIndex :=
  <["cat" := <[SStr "A" := 1]> ∅]> ∅.

Definition echo_model : Model :=
  fun df => inr (map (fun r => default SNull (last r)) (df_rows df)).

Definition sample_env : Artifacts :=
  mkArtifacts (<["config/prob-1/model-1.yaml" := sample_config]> ∅)
    (fun _ _ => inr sample_prob_config)
    (fun _ => inr sample_index)
    (<["models:/clf/1" := echo_model]> ∅).

Definition sample_service : ModelPredictor :=
  mkModelPredictor (<["prob-1" := echo_model]> ∅)
    (<["prob-1" := sample_config]> ∅)
    (<["prob-1" := sample_index]> ∅)
    (<["prob-1" := sample_prob_config]> ∅).

Definition sample_hash (df : DataFrame) : list Z :=
  map (fun r => Z.of_nat (length r)) (df_rows df).

(** A fresh world whose storage accepts a write at the paths [ok]
    accepts and refuses it elsewhere. *)
Definition sample_world (ok : string -> bool) : World :=
  mkWorld ∅ (fun path _ => if ok path then None else Some (OSError path))
    (fun n => n) 0 [] [].

Definition sample_state (ok : string -> bool) : State :=
  mkState sample_service (sample_world ok).

Definition sample_request : Data :=
  mkData "r1" [[SStr "A"; SInt 5]] ["cat"; "num"].

Definition sample_features : DataFrame :=
  mkDataFrame ["cat"; "num"] [[SInt 1; SInt 5]].

(** A request whose second row is one cell short. *)
Definition ragged_request : Data :=
  mkData "r2" [[SStr "B"; SInt 5]; [SStr "A"]] ["cat"; "num"].

(** A request with a wider row than its header. *)
Definition wide_request : Data :=
  mkData "r3" [[SStr "A"; SInt 5]] ["cat"].

(** A request without the categorical column. *)
Definition headless_request : Data :=
  mkData "r4" [[SInt 5]] ["num"].


(** * Properties *)

(** ** How the steps change the state *)

(** The state after one more call to a collaborator. *)
Definition called (e : Event) (st : State) : State :=
  mkState (self st) (set_trace (trace (world st) ++ [e]) (world st)).

(** The state after a table went into the capture store. *)
Definition stored (path : string) (df : DataFrame) (st : State) : State :=
  mkState (self st) (set_files (<[path := df]> (files (world st))) (world st)).

(** The state after a record went to [logging]. *)
Definition logged (r : LogRecord) (st : State) : State :=
  mkState (self st) (set_log (log (world st) ++ [r]) (world st)).

(** The state after the reference drift check. *)
Definition drift_checked (st : State) : State :=
  let w := world (called CallDetectDrift st) in
  mkState (self st)
    (set_rng (fun n => rng w (S n)) (set_clock (clock w + 20) w)).

(** ** Further notions used below *)

(** Every code point of the string is whitespace. *)
Fixpoint all_space (s : string) : bool :=
  match s with
  | EmptyString => true
  | String c s' => isspace c && all_space s'
  end.

(** What [os.path.join] puts in front of a relative name: the directory,
    followed by a slash unless it is empty or already ends in one. *)
Definition join_prefix (dir : string) : string :=
  if negb (truthy dir) || endswith_sep dir then dir else dir ++ "/".

(** The URI [__init__] loads the model of a config from. *)
Definition model_uri (cfg : ModelConfig) : string :=
  replace_char "\" "/"
    (os_path_join "models:/" [model_name cfg; pretty (model_version cfg)]).

(** The plain sum of a list of integers. *)
Definition Zsum (l : list Z) : Z := foldr Z.add 0 l.

Module PredictorApi.

(** [PredictorApi._log_request]: the body is [pass]. *)
Definition _log_request {R S} (request : R) : Py S unit := mret tt.

(** [PredictorApi._log_response]: the body is [pass]. *)
Definition _log_response {S} (response : PredictionResult) : Py S unit :=
  mret tt.

(** The handler of [GET /]. *)
Definition root : list (string * string) := [("message", "hello")].

(** The handler of [POST /phase-1/prob-1/predict]. *)
Definition predict (h : DataFrame -> list Z) {R} (data : Data) (request : R)
  : Py State PredictionResult :=
  _log_request request;;
  response ← predict h data "prob-1";
  _log_response response;;
  mret response.

End PredictorApi.

Lemma state_eta (st : State) : mkState (self st) (world st) = st.
Proof. destruct st; reflexivity. Qed.

Lemma detect_drift_run (df : DataFrame) (st : State) :
  detect_drift df st
  = (inr (Z.of_nat (rng (world st) 0 mod 2)), drift_checked st).
Proof.
  assert (Hlt : (rng (world st) 0 mod 2 < 2)%nat)
    by (apply Nat.mod_upper_bound; lia).
  unfold detect_drift, in_world, random_choice, drift_checked, called.
  cbv [mbind Py_bind record_call time_sleep].
  cbn [rng set_trace set_clock world length].
  destruct (rng (world st) 0 mod 2)%nat as [|[|k]]; try lia; reflexivity.
Qed.

Section CaptureFacts.

Variable hash_pandas_object : DataFrame -> list Z.

Lemma preprocess_cases (data : Data) (prob : string) (st : State) :
  preprocess data prob st =
  match pd_DataFrame (data_rows data) (data_columns data) with
  | inl e => (inl e, st)
  | inr raw_df =>
      match prob_config (self st) !! prob with
      | None => (inl (KeyError prob), st)
      | Some pc =>
          match category_index (self st) !! prob with
          | None => (inl (KeyError prob), st)
          | Some ci =>
              (RawDataProcessor1.apply_category_features raw_df
                 (categorical_cols pc) ci, called CallTransform st)
          end
      end
  end.
Proof.
  unfold preprocess, called.
  cbv [mbind Py_bind pure_call self_attr getitem in_world record_call
       mret Py_ret raise].
  destruct (pd_DataFrame _ _) as [e|raw_df]; [reflexivity|].
  destruct (decide (prob = "prob-1"));
    destruct (prob_config (self st) !! prob) as [pc|]; try reflexivity;
    destruct (category_index (self st) !! prob) as [ci|]; reflexivity.
Qed.

Lemma save_request_data_run (df : DataFrame) (dir i : string) (w : World) :
  save_request_data hash_pandas_object df dir i w =
  let path := output_file_path hash_pandas_object df dir i in
  let w' := set_trace (trace w ++ [CallToParquet path]) w in
  match write_error w path df with
  | None => (inr path, set_files (<[path := df]> (files w)) w')
  | Some e => (inl e, w')
  end.
Proof.
  unfold save_request_data, to_parquet, write_file.
  cbv [mbind Py_bind record_call mret Py_ret]. cbn.
  destruct (write_error w _ _); reflexivity.
Qed.

Lemma predict_with_cases (detect : DataFrame -> Py State Z)
    (data : Data) (prob : string) (st : State) :
  predict_with hash_pandas_object detect data prob st =
  match preprocess data prob st with
  | (inl e, st1) => (inl e, st1)
  | (inr fdf, st1) =>
      match prob_config (self st1) !! prob with
      | None => (inl (KeyError prob), st1)
      | Some pc =>
          let path := output_file_path hash_pandas_object fdf
                        (captured_data_dir pc) (data_id data) in
          let st2 := called (CallToParquet path) st1 in
          match write_error (world st1) path fdf with
          | Some e => (inl e, st2)
          | None =>
            let st3 := stored path fdf st2 in
            match model (self st1) !! prob with
            | None => (inl (KeyError prob), st3)
            | Some m =>
                let st4 := called (CallModelPredict prob) st3 in
                match m fdf with
                | inl e => (inl e, st4)
                | inr preds =>
                    match detect fdf st4 with
                    | (inl e, st5) => (inl e, st5)
                    | (inr d, st5) =>
                        (inr (mkPredictionResult (data_id data) preds d),
                         logged (LogPredictionTakes
                                   (clock (world st5) - clock (world st))) st5)
                    end
                end
            end
          end
      end
  end.
Proof.
  unfold predict_with.
  cbv [mbind Py_bind in_world time_time self_attr getitem mret Py_ret raise
       pure_call record_call logging_info].
  rewrite state_eta.
  destruct (preprocess data prob st) as [[e|fdf] st1]; [reflexivity|].
  destruct (prob_config (self st1) !! prob) as [pc|]; [|reflexivity].
  rewrite save_request_data_run. cbv zeta.
  destruct (write_error (world st1) _ _); [reflexivity|].
  cbn [self world].
  destruct (model (self st1) !! prob) as [m|]; [|reflexivity].
  cbn [self world].
  destruct (m fdf) as [e|preds]; [reflexivity|].
  unfold called, stored. cbn [self world trace files set_trace set_files].
  destruct (detect fdf _) as [[e|d] st5]; reflexivity.
Qed.

End CaptureFacts.

(** ** The drift flag *)

(** C10: [detect_drift] never reads its feature table: from one state it
    does the same whatever the table, under equal generator states the
    flag is the same for any two tables, and the flag is 0 or 1. *)
Theorem detect_drift_blind (df1 df2 : DataFrame) (st1 st2 : State) :
  rng (world st1) = rng (world st2) ->
  detect_drift df1 st1 = detect_drift df2 st1 /\
  (detect_drift df1 st1).1 = (detect_drift df2 st2).1 /\
  exists v, (detect_drift df1 st1).1 = inr v /\ (v = 0 \/ v = 1).
Proof.
  intros Hrng. rewrite !detect_drift_run. cbn [fst]. rewrite Hrng.
  split; [reflexivity|]. split; [reflexivity|].
  eexists; split; [reflexivity|].
  assert (Hlt : (rng (world st2) 0 mod 2 < 2)%nat)
    by (apply Nat.mod_upper_bound; lia).
  lia.
Qed.

Lemma detect_drift_blind_witness :
  let st1 := sample_state (fun _ => true) in
  let st2 := sample_state (fun _ => false) in
  rng (world st1) = rng (world st2) /\
  detect_drift sample_features st1
  = detect_drift (mkDataFrame [] []) st1 /\
  (detect_drift sample_features st1).1
  = (detect_drift (mkDataFrame [] []) st2).1 /\
  exists v, (detect_drift sample_features st1).1 = inr v /\ (v = 0 \/ v = 1).
Proof.
  cbv zeta. split; [reflexivity|].
  apply (detect_drift_blind sample_features (mkDataFrame [] [])
           (sample_state (fun _ => true)) (sample_state (fun _ => false))).
  reflexivity.
Defined.

(** ** The shared per-problem state *)

(** C9: [predict] leaves [self] as it found it: the loaded models, the
    model configs, the category indexes and the problem configs are the
    same after the call as before, whatever the request and its outcome. *)
Theorem predict_leaves_self (h : DataFrame -> list Z) (data : Data)
    (prob : string) (st : State) :
  let st' := (predict h data prob st).2 in
  self st' = self st /\
  model (self st') = model (self st) /\
  config (self st') = config (self st) /\
  category_index (self st') = category_index (self st) /\
  prob_config (self st') = prob_config (self st).
Proof.
  cbv zeta.
  assert (Hself : self (predict h data prob st).2 = self st).
  { unfold predict. rewrite predict_with_cases, preprocess_cases.
    destruct (pd_DataFrame _ _) as [e|raw_df]; [reflexivity|].
    destruct (prob_config (self st) !! prob) as [pc|] eqn:Hpc; [|reflexivity].
    destruct (category_index (self st) !! prob) as [ci|]; [|reflexivity].
    destruct (RawDataProcessor1.apply_category_features _ _ _) as [e|fdf];
      [reflexivity|].
    cbn [self called]. rewrite Hpc. cbv zeta.
    destruct (write_error _ _ _); [reflexivity|].
    destruct (model (self st) !! prob) as [m|]; [|reflexivity].
    destruct (m fdf) as [e|preds]; [reflexivity|].
    rewrite detect_drift_run. reflexivity. }
  rewrite Hself. repeat split.
Qed.

(** ** The order of the steps *)

(** C8: one pass through transform, capture, model, drift check. The calls
    a request adds to the history are an initial part of that sequence, in
    that order and without repetition; a request that returns a result
    went through all four; and the capture call is only ever made with the
    table a successful transform returned. *)
Theorem predict_single_pass (h : DataFrame -> list Z) (data : Data)
    (prob : string) (st : State) :
  exists path calls,
    trace (world (predict h data prob st).2)
    = (trace (world st) ++ calls)%list /\
    calls `prefix_of` pipeline path prob /\
    (forall r, (predict h data prob st).1 = inr r ->
               calls = pipeline path prob) /\
    (CallToParquet path ∈ calls ->
     exists raw_df pc ci fdf,
       pd_DataFrame (data_rows data) (data_columns data) = inr raw_df /\
       prob_config (self st) !! prob = Some pc /\
       category_index (self st) !! prob = Some ci /\
       RawDataProcessor1.apply_category_features raw_df
         (categorical_cols pc) ci = inr fdf /\
       path = output_file_path h fdf (captured_data_dir pc) (data_id data)).
Proof.
  unfold predict. rewrite predict_with_cases, preprocess_cases.
  assert (Hnone : forall (o : Exception + PredictionResult),
    (forall r, o <> inr r) ->
    exists (path : string) (calls : list Event),
      trace (world st) = (trace (world st) ++ calls)%list /\
      calls `prefix_of` pipeline path prob /\
      (forall r, o = inr r -> calls = pipeline path prob) /\
      (CallToParquet path ∈ calls -> False)).
  { intros o Ho. exists EmptyString, []. rewrite app_nil_r.
    split; [reflexivity|]. split; [apply prefix_nil|].
    split; [intros r Hr; destruct (Ho r Hr) | intros H; inversion H]. }
  destruct (pd_DataFrame _ _) as [e|raw_df] eqn:Hraw.
  { destruct (Hnone (inl e)) as (p & c & H1 & H2 & H3 & H4); [discriminate|].
    exists p, c. repeat split; try assumption. intros H; destruct (H4 H). }
  destruct (prob_config (self st) !! prob) as [pc|] eqn:Hpc.
  2:{ destruct (Hnone (inl (KeyError prob))) as (p & c & H1 & H2 & H3 & H4);
        [discriminate|].
      exists p, c. repeat split; try assumption. intros H; destruct (H4 H). }
  destruct (category_index (self st) !! prob) as [ci|] eqn:Hci.
  2:{ destruct (Hnone (inl (KeyError prob))) as (p & c & H1 & H2 & H3 & H4);
        [discriminate|].
      exists p, c. repeat split; try assumption. intros H; destruct (H4 H). }
  destruct (RawDataProcessor1.apply_category_features _ _ _)
    as [e|fdf] eqn:Hf.
  { exists EmptyString, [CallTransform]. cbn.
    repeat split; [eexists; reflexivity|discriminate|].
    intros H. apply list_elem_of_singleton in H. discriminate. }
  cbn [self called]. rewrite Hpc. cbv zeta.
  set (path := output_file_path h fdf (captured_data_dir pc) (data_id data)).
  assert (Hreach : exists raw_df0 pc0 ci0 fdf0,
    inr (A:=Exception) raw_df = inr raw_df0 /\ Some pc = Some pc0 /\
    Some ci = Some ci0 /\
    RawDataProcessor1.apply_category_features raw_df0
      (categorical_cols pc0) ci0 = inr fdf0 /\
    path = output_file_path h fdf0 (captured_data_dir pc0) (data_id data))
    by (exists raw_df, pc, ci, fdf; auto).
  exists path.
  destruct (write_error _ path _).
  { exists [CallTransform; CallToParquet path]. cbn. rewrite <- app_assoc.
    repeat split; [eexists; reflexivity|discriminate|].
    intros _; exact Hreach. }
  destruct (model (self st) !! prob) as [m|].
  2:{ exists [CallTransform; CallToParquet path]. cbn. rewrite <- app_assoc.
      repeat split; [eexists; reflexivity|discriminate|].
      intros _; exact Hreach. }
  destruct (m fdf) as [e|preds].
  { exists [CallTransform; CallToParquet path; CallModelPredict prob]. cbn.
    rewrite <- !app_assoc.
    repeat split; [eexists; reflexivity|discriminate|].
    intros _; exact Hreach. }
  rewrite detect_drift_run.
  exists (pipeline path prob). cbn. rewrite <- !app_assoc.
  split; [reflexivity|]. split; [reflexivity|]. split; [reflexivity|].
  intros _; exact Hreach.
Qed.

(** ** Startup *)

Lemma init_run (env : Artifacts) (config_file_path : string) (w : World)
    (s : ModelPredictor) (w' : World) :
  init env config_file_path w = (inr s, w') ->
  exists m cfg ci pc,
    s = mkModelPredictor (<["prob-1" := m]> ∅) (<["prob-1" := cfg]> ∅)
          (<["prob-1" := ci]> ∅) (<["prob-1" := pc]> ∅) /\
    w' = set_log (log w ++ [LogModelConfig cfg]) w.
Proof.
  unfold init, for_each, init_prob.
  cbv [mbind Py_bind mret Py_ret getitem open_yaml load_model pure_call
       logging_info raise].
  destruct (config_file_path_specific !! "prob-1") as [rel|];
    [|discriminate].
  destruct (yaml_files env !! _) as [cfg|]; [|discriminate].
  destruct (create_prob_config env _ _) as [e|pc]; [discriminate|].
  destruct (load_category_index env pc) as [e|ci]; [discriminate|].
  destruct (mlflow_models env !! _) as [m|]; [|discriminate].
  intros [= <- <-]. exists m, cfg, ci, pc. split; reflexivity.
Qed.

(** After startup, "prob-1" is the only problem the service knows. *)
Lemma init_only_prob1 (env : Artifacts) (config_file_path : string)
    (w : World) (s : ModelPredictor) (w' : World) (prob : string) :
  init env config_file_path w = (inr s, w') ->
  prob <> "prob-1" ->
  prob_config s !! prob = None.
Proof.
  intros Hinit Hne.
  destruct (init_run _ _ _ _ _ Hinit) as (m & cfg & ci & pc & -> & _).
  cbn. apply lookup_insert_None. split; [apply lookup_empty|].
  intros Heq; apply Hne; symmetry; exact Heq.
Qed.


(** The end-to-end example of the spec: the transformer yields [[1, 5]],
    the capture goes to [r1.parquet], the model echoes [5]. *)
Example predict_sample :
  let out := predict sample_hash sample_request "prob-1"
               (sample_state (fun _ => true)) in
  out.1 = inr (mkPredictionResult "r1" [SInt 5] 0) /\
  files (world out.2) !! "data/captured/r1.parquet" = Some sample_features /\
  trace (world out.2) = pipeline "data/captured/r1.parquet" "prob-1".
Proof. vm_compute. repeat split. Qed.

(** ** Capture naming *)

Lemma strip_truthy_nonempty (s : string) :
  truthy (strip s) = true -> s <> EmptyString.
Proof. intros H ->. discriminate H. Qed.

Lemma join_plain (dir name : string) :
  truthy dir = true -> endswith_sep dir = false ->
  startswith_sep name = false ->
  os_path_join dir [name] = dir ++ "/" ++ name.
Proof.
  intros Hd He Hs. unfold os_path_join. cbn. unfold join_step.
  rewrite Hs, Hd, He. reflexivity.
Qed.

(** C7: for a blank id the storage key is the fingerprint of the feature
    table, the decimal form of the wrapped sum of its row hashes: two calls
    with tables of the same content get the same key and the same path,
    and do the same to the capture store. *)
Theorem blank_id_key_is_fingerprint (h : DataFrame -> list Z)
    (df1 df2 : DataFrame) (dir id1 id2 : string) :
  truthy (strip id1) = false ->
  truthy (strip id2) = false ->
  df_columns df1 = df_columns df2 ->
  df_rows df1 = df_rows df2 ->
  filename h df1 id1 = pretty (uint64_sum (h df1)) /\
  filename h df1 id1 = filename h df2 id2 /\
  output_file_path h df1 dir id1 = output_file_path h df2 dir id2 /\
  forall w, save_request_data h df1 dir id1 w
            = save_request_data h df2 dir id2 w.
Proof.
  intros H1 H2 Hc Hr.
  assert (df1 = df2) as <- by (destruct df1, df2; cbn in *; congruence).
  assert (Hk : filename h df1 id1 = filename h df1 id2)
    by (unfold filename; rewrite H1, H2; reflexivity).
  assert (Hp : output_file_path h df1 dir id1 = output_file_path h df1 dir id2)
    by (unfold output_file_path; rewrite Hk; reflexivity).
  split; [unfold filename; rewrite H1; reflexivity|].
  split; [exact Hk|]. split; [exact Hp|].
  intros w. rewrite !save_request_data_run, Hp. reflexivity.
Qed.

Lemma blank_id_key_is_fingerprint_witness :
  let df1 := sample_features in
  let df2 := mkDataFrame ["cat"; "num"] [[SInt 1; SInt 5]] in
  truthy (strip EmptyString) = false /\ truthy (strip "  ") = false /\
  filename sample_hash df1 EmptyString = pretty (uint64_sum (sample_hash df1)) /\
  filename sample_hash df1 EmptyString = filename sample_hash df2 "  " /\
  output_file_path sample_hash df1 "data/captured" EmptyString
  = output_file_path sample_hash df2 "data/captured" "  " /\
  forall w, save_request_data sample_hash df1 "data/captured" EmptyString w
            = save_request_data sample_hash df2 "data/captured" "  " w.
Proof.
  cbv zeta. split; [reflexivity|]. split; [reflexivity|].
  apply (blank_id_key_is_fingerprint sample_hash sample_features
           (mkDataFrame ["cat"; "num"] [[SInt 1; SInt 5]])
           "data/captured" EmptyString "  "); reflexivity.
Defined.

(** C3, as the code has it: an id that is non-empty after trimming is the
    storage key as it stands, untrimmed; the path is
    [os.path.join(captured_data_dir, id + ".parquet")] whatever the feature
    table holds, which is [{captured_data_dir}/{id}.parquet] for a
    non-empty directory without a trailing slash and an id without a
    leading slash; and a call whose write goes through stores the table
    there and returns that path. *)
Theorem explicit_id_key_is_verbatim (h : DataFrame -> list Z)
    (df : DataFrame) (dir i : string) :
  truthy (strip i) = true ->
  filename h df i = i /\
  output_file_path h df dir i = os_path_join dir [i ++ ".parquet"] /\
  (forall df', output_file_path h df' dir i = output_file_path h df dir i) /\
  (truthy dir = true -> endswith_sep dir = false ->
   startswith_sep i = false ->
   output_file_path h df dir i = dir ++ "/" ++ i ++ ".parquet") /\
  (forall w, write_error w (output_file_path h df dir i) df = None ->
     exists w',
       save_request_data h df dir i w
       = (inr (output_file_path h df dir i), w') /\
       files w' = <[output_file_path h df dir i := df]> (files w)).
Proof.
  intros Hid.
  assert (Hk : forall d, filename h d i = i)
    by (intros d; unfold filename; rewrite Hid; reflexivity).
  assert (Hp : forall d, output_file_path h d dir i
                         = os_path_join dir [i ++ ".parquet"])
    by (intros d; unfold output_file_path; rewrite Hk; reflexivity).
  split; [apply Hk|]. split; [apply Hp|].
  split; [intros df'; rewrite !Hp; reflexivity|].
  split.
  - intros Hd He Hs. rewrite Hp. apply join_plain; try assumption.
    pose proof (strip_truthy_nonempty _ Hid) as Hne.
    destruct i as [|c i']; [congruence | exact Hs].
  - intros w Hw. rewrite save_request_data_run. cbv zeta. rewrite Hw.
    eexists; split; reflexivity.
Qed.

Lemma explicit_id_key_is_verbatim_witness :
  truthy (strip " r1 ") = true /\
  filename sample_hash sample_features " r1 " = " r1 " /\
  output_file_path sample_hash sample_features "data/captured" " r1 "
  = "data/captured/ r1 .parquet".
Proof.
  split; [reflexivity|].
  pose proof (explicit_id_key_is_verbatim sample_hash sample_features
                "data/captured" " r1 " eq_refl) as (Hk & _ & _ & Hp & _).
  split; [exact Hk | apply Hp; reflexivity].
Defined.

(** The id [" r1 "] trims to ["r1"], yet the table is stored under the
    untrimmed name and nothing is stored under the trimmed one. *)
Lemma trimmed_id_is_not_the_key :
  strip " r1 " = "r1" /\
  let out := save_request_data sample_hash sample_features "data/captured"
               " r1 " (sample_world (fun _ => true)) in
  out.1 = inr "data/captured/ r1 .parquet" /\
  out.1 <> inr ("data/captured" ++ "/" ++ strip " r1 " ++ ".parquet") /\
  files out.2 !! "data/captured/r1.parquet" = None.
Proof. vm_compute. repeat split. discriminate. Qed.

(** ** Failures along the pipeline *)

Section Failures.

Variable h : DataFrame -> list Z.

Lemma preprocess_inr (data : Data) (prob : string) (st st1 : State)
    (fdf : DataFrame) :
  preprocess data prob st = (inr fdf, st1) ->
  st1 = called CallTransform st /\
  exists raw_df pc ci,
    pd_DataFrame (data_rows data) (data_columns data) = inr raw_df /\
    prob_config (self st) !! prob = Some pc /\
    category_index (self st) !! prob = Some ci /\
    RawDataProcessor1.apply_category_features raw_df
      (categorical_cols pc) ci = inr fdf.
Proof.
  rewrite preprocess_cases.
  destruct (pd_DataFrame _ _) as [e|raw_df]; [discriminate|].
  destruct (prob_config (self st) !! prob) as [pc|]; [|discriminate].
  destruct (category_index (self st) !! prob) as [ci|]; [|discriminate].
  intros [= Hf <-]. split; [reflexivity|].
  exists raw_df, pc, ci. auto.
Qed.

(** What [predict] does once preprocessing has delivered a feature table
    and the capture write has gone through. *)
Lemma predict_with_after_capture (detect : DataFrame -> Py State Z)
    (data : Data) (prob : string) (st st1 : State) (fdf : DataFrame)
    (pc : ProblemConfig) (m : Model) (preds : list Scalar) :
  preprocess data prob st = (inr fdf, st1) ->
  prob_config (self st) !! prob = Some pc ->
  let path := output_file_path h fdf (captured_data_dir pc) (data_id data) in
  write_error (world st) path fdf = None ->
  model (self st) !! prob = Some m ->
  m fdf = inr preds ->
  predict_with h detect data prob st =
  match detect fdf (called (CallModelPredict prob)
                      (stored path fdf (called (CallToParquet path) st1))) with
  | (inl e, st5) => (inl e, st5)
  | (inr d, st5) =>
      (inr (mkPredictionResult (data_id data) preds d),
       logged (LogPredictionTakes (clock (world st5) - clock (world st))) st5)
  end.
Proof.
  intros Hpre Hpc path Hw Hm Hpreds.
  destruct (preprocess_inr _ _ _ _ _ Hpre) as [-> _].
  rewrite predict_with_cases, Hpre.
  cbn [self world called write_error set_trace].
  rewrite Hpc. cbv zeta. fold path. rewrite Hw. cbn [self called].
  rewrite Hm, Hpreds. reflexivity.
Qed.

End Failures.

(** C1, as the code has it: the capture write is not guarded. For a
    request that reaches the capture step, a write the storage refuses
    raises out of [save_request_data] and out of [predict]: the model is
    not invoked, nothing is logged, nothing is stored and the caller gets
    the [OSError] instead of a result. *)
Theorem capture_failure_aborts (h : DataFrame -> list Z) (data : Data)
    (prob : string) (st st1 : State) (fdf : DataFrame) (pc : ProblemConfig)
    (e : Exception) :
  preprocess data prob st = (inr fdf, st1) ->
  prob_config (self st) !! prob = Some pc ->
  let path := output_file_path h fdf (captured_data_dir pc) (data_id data) in
  write_error (world st) path fdf = Some e ->
  let out := predict h data prob st in
  out.1 = inl e /\
  trace (world out.2)
  = (trace (world st) ++ [CallTransform; CallToParquet path])%list /\
  log (world out.2) = log (world st) /\
  files (world out.2) = files (world st).
Proof.
  intros Hpre Hpc path Hw out. subst out. unfold predict.
  destruct (preprocess_inr _ _ _ _ _ Hpre) as [-> _].
  rewrite predict_with_cases, Hpre.
  cbn [self world called write_error set_trace]. rewrite Hpc. cbv zeta.
  fold path. rewrite Hw. cbn. rewrite <- app_assoc. repeat split.
Qed.

Lemma capture_failure_aborts_witness :
  let st := sample_state (fun _ => false) in
  let out := predict sample_hash sample_request "prob-1" st in
  write_error (world st) "data/captured/r1.parquet" sample_features
  = Some (OSError "data/captured/r1.parquet") /\
  out.1 = inl (OSError "data/captured/r1.parquet") /\
  trace (world out.2)
  = [CallTransform; CallToParquet "data/captured/r1.parquet"] /\
  log (world out.2) = [] /\
  files (world out.2) = ∅.
Proof.
  cbv zeta. split; [reflexivity|].
  apply (capture_failure_aborts sample_hash sample_request "prob-1"
           (sample_state (fun _ => false))
           (called CallTransform (sample_state (fun _ => false)))
           sample_features sample_prob_config
           (OSError "data/captured/r1.parquet"));
    vm_compute; reflexivity.
Defined.

(** On read-only storage the sample request reaches the capture step and
    gets no result: the write error comes back, the model was never
    called and the log is empty. *)
Lemma capture_failure_is_fatal :
  let st := sample_state (fun _ => false) in
  let out := predict sample_hash sample_request "prob-1" st in
  (CallToParquet "data/captured/r1.parquet" ∈ trace (world out.2)) /\
  (forall r, out.1 <> inr r) /\
  (CallModelPredict "prob-1" ∉ trace (world out.2)) /\
  log (world out.2) = [].
Proof.
  vm_compute. split; [|split; [|split]].
  - apply list_elem_of_In. right. left. reflexivity.
  - discriminate.
  - intros H. apply list_elem_of_In in H.
    destruct H as [H|[H|[]]]; discriminate H.
  - reflexivity.
Qed.

(** C2, as the code has it: for a problem id the service has no config
    for, [predict] raises and leaves the state as it found it, so no
    capture file is written and no model is called. The raw table is
    built before the config is looked up: when it can be built the error
    is the [KeyError] of the lookup, otherwise it is the constructor's. *)
Theorem unknown_problem_fails (h : DataFrame -> list Z) (data : Data)
    (prob : string) (st : State) :
  prob_config (self st) !! prob = None ->
  exists e,
    predict h data prob st = (inl e, st) /\
    (forall raw_df,
       pd_DataFrame (data_rows data) (data_columns data) = inr raw_df ->
       e = KeyError prob) /\
    (forall e',
       pd_DataFrame (data_rows data) (data_columns data) = inl e' ->
       e = e').
Proof.
  intros Hpc. unfold predict. rewrite predict_with_cases, preprocess_cases.
  destruct (pd_DataFrame _ _) as [e|raw_df].
  - exists e. split; [reflexivity|]. split; [discriminate|].
    intros e' [= <-]; reflexivity.
  - rewrite Hpc. exists (KeyError prob).
    split; [reflexivity|]. split; [reflexivity|discriminate].
Qed.

Lemma unknown_problem_fails_witness :
  let st := sample_state (fun _ => true) in
  prob_config (self st) !! "prob-2" = None /\
  predict sample_hash sample_request "prob-2" st
  = (inl (KeyError "prob-2"), st).
Proof.
  cbv zeta. split; [reflexivity|].
  destruct (unknown_problem_fails sample_hash sample_request "prob-2"
              (sample_state (fun _ => true)) eq_refl) as (e & Hrun & Hkey & _).
  rewrite Hrun, (Hkey _ eq_refl). reflexivity.
Defined.

(** For the unconfigured "prob-2", a request whose row is wider than its
    header fails with the [ValueError] of table construction, not with a
    lookup error. *)
Lemma unknown_problem_value_error :
  let st := sample_state (fun _ => true) in
  prob_config (self st) !! "prob-2" = None /\
  predict sample_hash wide_request "prob-2" st = (inl (ValueError 1 2), st) /\
  ValueError 1 2 <> KeyError "prob-2".
Proof.
  cbv zeta. split; [reflexivity|]. split; [|discriminate].
  vm_compute. reflexivity.
Qed.




(** ** Tables and the transformer *)

Lemma max_width_uniform (n : nat) (rows : list (list Scalar)) :
  Forall (fun r => length r = n) rows -> rows <> [] -> max_width rows = n.
Proof.
  induction 1 as [|r rows Hr Hrows IH]; [congruence|]. intros _.
  change (max_width (r :: rows))
    with (Nat.max (length r) (max_width rows)).
  destruct rows as [|r' rows'].
  - cbn. lia.
  - rewrite IH by discriminate. lia.
Qed.

Lemma pad_row_full (n : nat) (r : list Scalar) :
  length r = n -> pad_row n r = r.
Proof.
  intros <-. unfold pad_row. rewrite Nat.sub_diag. cbn. apply app_nil_r.
Qed.

Lemma pad_rows_uniform (n : nat) (rows : list (list Scalar)) :
  Forall (fun r => length r = n) rows -> map (pad_row n) rows = rows.
Proof.
  induction 1 as [|r rows Hr _ IH]; [reflexivity|].
  cbn. rewrite pad_row_full, IH by assumption. reflexivity.
Qed.

(** A valid request becomes the table of its own rows. *)
Lemma pd_DataFrame_valid (data : Data) :
  valid_request data ->
  pd_DataFrame (data_rows data) (data_columns data)
  = inr (mkDataFrame (data_columns data) (data_rows data)).
Proof.
  unfold valid_request, pd_DataFrame. intros Hv.
  destruct (data_rows data) as [|r rows] eqn:Hrows; [reflexivity|].
  cbv zeta. rewrite (max_width_uniform (length (data_columns data)))
    by (assumption || discriminate).
  rewrite decide_True by reflexivity.
  rewrite pad_rows_uniform by assumption. reflexivity.
Qed.

(** The constructor keeps the header and the number of rows. *)
Lemma pd_DataFrame_inr (rows : list (list Scalar)) (columns : list string)
    (raw_df : DataFrame) :
  pd_DataFrame rows columns = inr raw_df ->
  df_columns raw_df = columns /\
  df_rows raw_df = map (pad_row (max_width rows)) rows.
Proof.
  unfold pd_DataFrame. destruct rows as [|r rows].
  - intros [= <-]. split; reflexivity.
  - cbv zeta. destruct (decide _); [|discriminate].
    intros [= <-]. split; reflexivity.
Qed.

Lemma pd_DataFrame_inl (rows : list (list Scalar)) (columns : list string) :
  rows <> [] -> max_width rows <> length columns ->
  pd_DataFrame rows columns
  = inl (ValueError (length columns) (max_width rows)).
Proof.
  intros Hne Hw. unfold pd_DataFrame.
  destruct rows as [|r rows]; [congruence|]. cbv zeta.
  rewrite decide_False by (intros Heq; apply Hw; symmetry; exact Heq).
  reflexivity.
Qed.

Lemma missing_col_Some (cats cols : list string) (c : string) :
  missing_col cats cols = Some c -> c ∈ cats /\ c ∉ cols.
Proof.
  unfold missing_col.
  destruct (list_find _ cats) as [[i x]|] eqn:Hfind; [|discriminate].
  cbn. intros [= <-]. apply list_find_Some in Hfind as (Hi & Hx & _).
  split; [|exact Hx]. apply list_elem_of_lookup. exists i. exact Hi.
Qed.

Lemma missing_col_None (cats cols : list string) :
  missing_col cats cols = None <-> Forall (fun c => c ∈ cols) cats.
Proof.
  unfold missing_col.
  destruct (list_find _ cats) as [[i x]|] eqn:Hfind; cbn.
  - split; [discriminate|]. intros Hall.
    apply list_find_Some in Hfind as (Hi & Hx & _).
    rewrite Forall_forall in Hall. exfalso. apply Hx, Hall.
    apply list_elem_of_lookup. exists i. exact Hi.
  - split; [|reflexivity]. intros _.
    apply list_find_None in Hfind.
    eapply Forall_impl; [exact Hfind|]. cbn. intros c Hc.
    destruct (decide (c ∈ cols)); [assumption | contradiction].
Qed.

(** A column of the header that is declared categorical but absent from
    the table makes the transformer raise, naming such a column. *)
Lemma missing_col_found (cats cols : list string) (c : string) :
  c ∈ cats -> c ∉ cols ->
  exists c', missing_col cats cols = Some c' /\ c' ∈ cats /\ c' ∉ cols.
Proof.
  intros Hin Hout.
  destruct (missing_col cats cols) as [c'|] eqn:Hm.
  - exists c'. split; [reflexivity|]. apply missing_col_Some. exact Hm.
  - apply missing_col_None in Hm. rewrite Forall_forall in Hm.
    exfalso. apply Hout, Hm, Hin.
Qed.

Lemma apply_category_features_inr (raw_df fdf : DataFrame)
    (cats : list string) (index : CategoryIndex) :
  RawDataProcessor1.apply_category_features raw_df cats index = inr fdf ->
  df_columns fdf = df_columns raw_df /\
  df_rows fdf = map (encode_row (df_columns raw_df) cats index)
                  (df_rows raw_df).
Proof.
  unfold RawDataProcessor1.apply_category_features.
  destruct (missing_col _ _); [discriminate|].
  destruct (shape_ok raw_df); [|discriminate].
  intros [= <-]. split; reflexivity.
Qed.

Lemma shape_ok_valid (data : Data) :
  valid_request data ->
  shape_ok (mkDataFrame (data_columns data) (data_rows data)) = true.
Proof.
  unfold valid_request, shape_ok. cbn. intros Hv.
  apply forallb_forall. intros r Hr.
  rewrite Forall_forall in Hv. apply Nat.eqb_eq, Hv, list_elem_of_In, Hr.
Qed.

(** What preprocessing makes of a valid request. *)
Lemma preprocess_valid (data : Data) (prob : string) (st : State)
    (pc : ProblemConfig) (ci : CategoryIndex) :
  valid_request data ->
  prob_config (self st) !! prob = Some pc ->
  category_index (self st) !! prob = Some ci ->
  missing_col (categorical_cols pc) (data_columns data) = None ->
  preprocess data prob st
  = (inr (mkDataFrame (data_columns data)
            (map (encode_row (data_columns data) (categorical_cols pc) ci)
               (data_rows data))),
     called CallTransform st).
Proof.
  intros Hv Hpc Hci Hmiss.
  rewrite preprocess_cases, (pd_DataFrame_valid _ Hv), Hpc, Hci.
  unfold RawDataProcessor1.apply_category_features. cbn [df_columns df_rows].
  rewrite Hmiss, (shape_ok_valid _ Hv). reflexivity.
Qed.

(** ** Results *)

(** C5: for a valid request and a model that returns one prediction per
    row, a result carries the caller's id and exactly one prediction per
    request row: the predictions are what the model returned, in the order
    it returned them, for the feature table whose i-th row is the
    encoding of the i-th request row. Such a result is returned whenever
    the problem is configured, the categorical columns are in the header,
    the capture write goes through and the model does not raise. *)
Theorem predict_one_prediction_per_row (h : DataFrame -> list Z)
    (data : Data) (prob : string) (st : State) (m : Model) :
  valid_request data ->
  model (self st) !! prob = Some m ->
  one_per_row m ->
  (forall r st', predict h data prob st = (inr r, st') ->
     res_id r = data_id data /\
     length (predictions r) = length (data_rows data) /\
     exists pc ci,
       prob_config (self st) !! prob = Some pc /\
       category_index (self st) !! prob = Some ci /\
       m (mkDataFrame (data_columns data)
            (map (encode_row (data_columns data) (categorical_cols pc) ci)
               (data_rows data)))
       = inr (predictions r)) /\
  (forall pc ci preds,
     prob_config (self st) !! prob = Some pc ->
     category_index (self st) !! prob = Some ci ->
     missing_col (categorical_cols pc) (data_columns data) = None ->
     let fdf := mkDataFrame (data_columns data)
                  (map (encode_row (data_columns data) (categorical_cols pc)
                          ci) (data_rows data)) in
     write_error (world st)
       (output_file_path h fdf (captured_data_dir pc) (data_id data)) fdf
     = None ->
     m fdf = inr preds ->
     exists v st',
       predict h data prob st
       = (inr (mkPredictionResult (data_id data) preds v), st')).
Proof.
  intros Hv Hm Hone. split.
  - intros r st'. unfold predict. rewrite predict_with_cases.
    destruct (preprocess data prob st) as [[e|fdf] st1] eqn:Hpre;
      [discriminate|].
    destruct (preprocess_inr _ _ _ _ _ Hpre)
      as (-> & raw_df & pc & ci & Hraw & Hpc & Hci & Hf).
    rewrite (pd_DataFrame_valid _ Hv) in Hraw. injection Hraw as <-.
    apply apply_category_features_inr in Hf as [Hcols Hrows].
    cbn [df_columns df_rows] in Hcols, Hrows.
    assert (Hfdf : fdf = mkDataFrame (data_columns data)
                     (map (encode_row (data_columns data)
                             (categorical_cols pc) ci) (data_rows data)))
      by (destruct fdf; cbn in *; congruence).
    cbn [self called]. rewrite Hpc. cbv zeta.
    destruct (write_error _ _ _); [discriminate|].
    rewrite Hm. destruct (m fdf) as [e|preds] eqn:Hpreds; [discriminate|].
    rewrite detect_drift_run. intros [= <- _]. cbn [res_id predictions].
    split; [reflexivity|]. split.
    + rewrite (Hone _ _ Hpreds), Hrows. apply length_map.
    + exists pc, ci. rewrite <- Hfdf. auto.
  - intros pc ci preds Hpc Hci Hmiss fdf Hw Hpreds. unfold predict.
    rewrite (predict_with_after_capture h detect_drift _ _ _ _ _ _ _ _
               (preprocess_valid _ _ _ _ _ Hv Hpc Hci Hmiss) Hpc Hw Hm Hpreds).
    rewrite detect_drift_run. eexists _, _. reflexivity.
Qed.

Lemma echo_model_one_per_row : one_per_row echo_model.
Proof. intros df preds [= <-]. apply length_map. Qed.

Lemma predict_one_prediction_per_row_witness :
  valid_request sample_request /\
  one_per_row echo_model /\
  exists v st',
    predict sample_hash sample_request "prob-1" (sample_state (fun _ => true))
    = (inr (mkPredictionResult "r1" [SInt 5] v), st').
Proof.
  assert (Hv : valid_request sample_request)
    by (repeat constructor).
  split; [exact Hv|]. split; [exact echo_model_one_per_row|].
  destruct (predict_one_prediction_per_row sample_hash sample_request
              "prob-1" (sample_state (fun _ => true)) echo_model
              Hv eq_refl echo_model_one_per_row) as [_ Hrun].
  apply (Hrun sample_prob_config sample_index [SInt 5]);
    vm_compute; reflexivity.
Defined.

(** C6, as the code has it: a request whose table lacks a declared
    categorical column is stopped by the transformer with a
    [ValidationError], and a request whose longest row and header differ
    in length is stopped one step earlier, with the [ValueError] of table
    construction; either way before any capture write and any model call.
    Rows shorter than the longest are not rejected (pandas fills them). *)
Theorem malformed_request_aborts (h : DataFrame -> list Z) (data : Data)
    (prob : string) (st : State) :
  let out := predict h data prob st in
  (forall raw_df pc ci c,
     pd_DataFrame (data_rows data) (data_columns data) = inr raw_df ->
     prob_config (self st) !! prob = Some pc ->
     category_index (self st) !! prob = Some ci ->
     c ∈ categorical_cols pc -> c ∉ data_columns data ->
     exists c',
       (c' ∈ categorical_cols pc) /\ (c' ∉ data_columns data) /\
       out.1 = inl (ValidationError (Some c')) /\
       trace (world out.2) = (trace (world st) ++ [CallTransform])%list /\
       files (world out.2) = files (world st)) /\
  (data_rows data <> [] ->
   max_width (data_rows data) <> length (data_columns data) ->
   out = (inl (ValueError (length (data_columns data))
                 (max_width (data_rows data))), st)).
Proof.
  cbv zeta. unfold predict. rewrite predict_with_cases, preprocess_cases.
  split.
  - intros raw_df pc ci c Hraw Hpc Hci Hin Hout.
    rewrite Hraw, Hpc, Hci.
    apply pd_DataFrame_inr in Hraw as [Hcols _].
    unfold RawDataProcessor1.apply_category_features. rewrite Hcols.
    destruct (missing_col_found _ _ _ Hin Hout) as (c' & -> & Hin' & Hout').
    exists c'. repeat split; assumption.
  - intros Hne Hw. rewrite (pd_DataFrame_inl _ _ Hne Hw). reflexivity.
Qed.

Lemma malformed_request_aborts_witness :
  let st := sample_state (fun _ => true) in
  (exists c',
     (predict sample_hash headless_request "prob-1" st).1
     = inl (ValidationError (Some c'))) /\
  predict sample_hash wide_request "prob-1" st = (inl (ValueError 1 2), st).
Proof.
  cbv zeta. split.
  - destruct (malformed_request_aborts sample_hash headless_request "prob-1"
                (sample_state (fun _ => true))) as [Hmissing _].
    destruct (Hmissing (mkDataFrame ["num"] [[SInt 5]]) sample_prob_config
                sample_index "cat" eq_refl eq_refl eq_refl)
      as (c' & _ & _ & Hout & _).
    + apply list_elem_of_In. left. reflexivity.
    + intros Hin. apply list_elem_of_In in Hin.
      destruct Hin as [Hin|[]]. discriminate Hin.
    + exists c'. exact Hout.
  - apply (malformed_request_aborts sample_hash wide_request "prob-1"
             (sample_state (fun _ => true))).
    + discriminate.
    + vm_compute. discriminate.
Defined.

(** A request whose second row is one cell short is not valid, yet it is
    not rejected: the short row is filled with a missing value, the table
    is captured, the model is called and a result comes back. *)
Lemma ragged_request_is_served :
  let out := predict sample_hash ragged_request "prob-1"
               (sample_state (fun _ => true)) in
  ~ valid_request ragged_request /\
  out.1 = inr (mkPredictionResult "r2" [SInt 5; SNull] 0) /\
  files (world out.2) !! "data/captured/r2.parquet"
  = Some (mkDataFrame ["cat"; "num"] [[SInt (-1); SInt 5]; [SInt 1; SNull]]) /\
  trace (world out.2) = pipeline "data/captured/r2.parquet" "prob-1".
Proof.
  cbv zeta. split.
  - intros Hv. unfold valid_request in Hv. cbn in Hv.
    inversion Hv as [|? ? _ Hrest]. inversion Hrest as [|? ? Hlen _].
    discriminate Hlen.
  - vm_compute. repeat split.
Qed.

(** * Further properties of the code *)

(** ** Which ids are blank *)

Lemma truthy_false (s : string) : truthy s = false <-> s = EmptyString.
Proof. destruct s; cbn; split; congruence. Qed.

Lemma lstrip_empty (s : string) :
  lstrip s = EmptyString <-> all_space s = true.
Proof.
  induction s as [|c s IH]; cbn; [tauto|].
  destruct (isspace c); cbn; [exact IH|]. split; discriminate.
Qed.

Lemma all_space_lstrip (s : string) : all_space (lstrip s) = all_space s.
Proof.
  induction s as [|c s IH]; [reflexivity|]. cbn.
  destruct (isspace c) eqn:Hc; cbn; [exact IH | rewrite Hc; reflexivity].
Qed.

Lemma all_space_rev_app (s t : string) :
  all_space (String.rev_app s t) = all_space s && all_space t.
Proof.
  revert t. induction s as [|c s IH]; intros t; [reflexivity|].
  cbn. rewrite IH. cbn. destruct (isspace c), (all_space s); reflexivity.
Qed.

Lemma all_space_rev (s : string) : all_space (String.rev s) = all_space s.
Proof.
  unfold String.rev. rewrite all_space_rev_app. cbn. apply andb_true_r.
Qed.

Lemma rev_app_empty (s t : string) :
  String.rev_app s t = EmptyString -> s = EmptyString /\ t = EmptyString.
Proof.
  revert t. induction s as [|c s IH]; intros t; cbn; [tauto|].
  intros H. apply IH in H as [_ H]. discriminate H.
Qed.

Lemma rev_empty (s : string) :
  String.rev s = EmptyString <-> s = EmptyString.
Proof.
  split; [|intros ->; reflexivity].
  intros H. apply rev_app_empty in H. tauto.
Qed.

(** X1: the test [data_id.strip()] of [save_request_data] fails exactly for
    the ids made of whitespace only (the empty id among them); every other
    id, also one with blanks around it, is an explicit id. *)
Theorem blank_iff_all_space (s : string) :
  truthy (strip s) = false <-> all_space s = true.
Proof.
  rewrite truthy_false. unfold strip, rstrip.
  rewrite rev_empty, lstrip_empty, all_space_rev, all_space_lstrip.
  reflexivity.
Qed.

Lemma blank_iff_all_space_witness :
  all_space "  " = true /\ truthy (strip "  ") = false /\
  all_space " r1 " = false /\ truthy (strip " r1 ") = true.
Proof.
  split; [reflexivity|].
  split; [apply (proj2 (blank_iff_all_space "  ")); reflexivity|].
  split; [reflexivity|].
  destruct (truthy (strip " r1 ")) eqn:Hs; [reflexivity|].
  apply (proj1 (blank_iff_all_space " r1 ")) in Hs. discriminate Hs.
Defined.

(** ** Where a capture file goes *)

Lemma string_app_assoc (s t u : string) : (s ++ t) ++ u = s ++ t ++ u.
Proof.
  induction s as [|c s IH]; [reflexivity|].
  change (String c ((s ++ t) ++ u) = String c (s ++ t ++ u)).
  rewrite IH. reflexivity.
Qed.



Lemma startswith_sep_app (s t : string) :
  s <> EmptyString -> startswith_sep (s ++ t) = startswith_sep s.
Proof. destruct s; [congruence | reflexivity]. Qed.

Lemma join_absolute (dir name : string) :
  startswith_sep name = true -> os_path_join dir [name] = name.
Proof. intros H. cbn. unfold join_step. rewrite H. reflexivity. Qed.

Lemma join_relative (dir name : string) :
  startswith_sep name = false ->
  os_path_join dir [name] = join_prefix dir ++ name.
Proof.
  intros H. cbn. unfold join_step, join_prefix. rewrite H.
  destruct (negb (truthy dir) || endswith_sep dir); [reflexivity|].
  symmetry. apply string_app_assoc.
Qed.

Lemma startswith_sep_explicit (i : string) :
  startswith_sep i = true -> truthy (strip i) = true.
Proof.
  intros H. destruct (truthy (strip i)) eqn:Hs; [reflexivity|].
  apply truthy_false in Hs. unfold strip, rstrip in Hs.
  rewrite rev_empty, lstrip_empty, all_space_rev, all_space_lstrip in Hs.
  destruct i as [|c i]; [discriminate H|]. cbn in H, Hs.
  apply Ascii.eqb_eq in H. subst c. discriminate Hs.
Qed.

(** X2: an id that begins with a slash takes the capture out of the
    captured-data directory: [os.path.join] drops the directory, and the
    table is stored at the id itself plus the extension. *)
Theorem absolute_id_escapes_dir (h : DataFrame -> list Z) (df : DataFrame)
    (dir i : string) :
  startswith_sep i = true ->
  output_file_path h df dir i = i ++ ".parquet" /\
  forall w, write_error w (i ++ ".parquet") df = None ->
    (save_request_data h df dir i w).1 = inr (i ++ ".parquet") /\
    files (save_request_data h df dir i w).2 !! (i ++ ".parquet") = Some df.
Proof.
  intros Hi.
  assert (Hp : output_file_path h df dir i = i ++ ".parquet").
  { unfold output_file_path, filename.
    rewrite (startswith_sep_explicit _ Hi). apply join_absolute.
    rewrite startswith_sep_app; [exact Hi|]. intros ->. discriminate Hi. }
  split; [exact Hp|]. intros w Hw.
  rewrite save_request_data_run. cbv zeta. rewrite Hp, Hw. cbn.
  split; [reflexivity | apply lookup_insert_eq].
Qed.

Lemma absolute_id_escapes_dir_witness :
  startswith_sep "/tmp/x" = true /\
  output_file_path sample_hash sample_features "data/captured" "/tmp/x"
  = "/tmp/x.parquet".
Proof.
  split; [reflexivity|].
  apply (absolute_id_escapes_dir sample_hash sample_features
           "data/captured" "/tmp/x"). reflexivity.
Defined.



(** Across the two kinds the directory can make two ids meet. *)
Example absolute_and_relative_ids_collide :
  output_file_path sample_hash sample_features "/data" "/data/r1"
  = output_file_path sample_hash sample_features "/data" "r1".
Proof. reflexivity. Qed.

(** ** The fingerprint of an anonymous request *)

Lemma uint64_sum_mod (l : list Z) : uint64_sum l = Zsum l mod 2 ^ 64.
Proof.
  induction l as [|x l IH]; [reflexivity|].
  change (uint64_sum (x :: l)) with ((x + uint64_sum l) mod 2 ^ 64).
  change (Zsum (x :: l)) with (x + Zsum l).
  rewrite IH. apply Zplus_mod_idemp_r.
Qed.

Lemma uint64_sum_range (l : list Z) : 0 <= uint64_sum l < 2 ^ 64.
Proof. rewrite uint64_sum_mod. apply Z.mod_pos_bound. lia. Qed.

Lemma Zsum_Permutation (l1 l2 : list Z) : l1 ≡ₚ l2 -> Zsum l1 = Zsum l2.
Proof.
  induction 1 as [|x l1 l2 _ IH|x y l|l1 l2 l3 _ IH1 _ IH2]; unfold Zsum in *;
    cbn; lia.
Qed.

(** X4: two anonymous requests get the same storage key exactly when the
    sums of the row hashes of their feature tables agree modulo 2^64; in
    particular the key does not see the order of the row hashes. *)
Theorem fingerprint_collides_iff (h : DataFrame -> list Z)
    (df1 df2 : DataFrame) (id1 id2 : string) :
  truthy (strip id1) = false ->
  truthy (strip id2) = false ->
  (filename h df1 id1 = filename h df2 id2
   <-> Zsum (h df1) mod 2 ^ 64 = Zsum (h df2) mod 2 ^ 64) /\
  (h df1 ≡ₚ h df2 -> filename h df1 id1 = filename h df2 id2).
Proof.
  intros H1 H2. unfold filename. rewrite H1, H2, !uint64_sum_mod.
  assert (Hiff : pretty (Zsum (h df1) mod 2 ^ 64)
                 = pretty (Zsum (h df2) mod 2 ^ 64)
                 <-> Zsum (h df1) mod 2 ^ 64 = Zsum (h df2) mod 2 ^ 64).
  { split; [apply pretty_Z_inj | intros ->; reflexivity]. }
  split; [exact Hiff|].
  intros Hp. rewrite (Zsum_Permutation _ _ Hp). reflexivity.
Qed.

Lemma fingerprint_collides_iff_witness :
  let df1 := mkDataFrame ["a"] [[SInt 1]; [SInt 2; SInt 3]] in
  let df2 := mkDataFrame ["b"] [[SInt 4; SInt 5]; [SInt 6]] in
  truthy (strip EmptyString) = false /\
  sample_hash df1 ≡ₚ sample_hash df2 /\
  filename sample_hash df1 EmptyString = filename sample_hash df2 EmptyString.
Proof.
  cbv zeta. split; [reflexivity|].
  assert (Hp : sample_hash (mkDataFrame ["a"] [[SInt 1]; [SInt 2; SInt 3]])
               ≡ₚ sample_hash
                    (mkDataFrame ["b"] [[SInt 4; SInt 5]; [SInt 6]]))
    by apply perm_swap.
  split; [exact Hp|].
  apply (fingerprint_collides_iff sample_hash _ _ EmptyString EmptyString
           eq_refl eq_refl). exact Hp.
Defined.

Lemma pretty_N_go_head (x : N) (s : string) :
  (exists c t, s = String c t /\ c <> "/"%char) ->
  exists c t, pretty_N_go x s = String c t /\ c <> "/"%char.
Proof.
  revert s. induction (N.lt_wf_0 x) as [x _ IH]. intros s Hs.
  destruct (decide (x = 0)%N) as [->|Hx].
  - rewrite pretty_N_go_0. exact Hs.
  - rewrite pretty_N_go_step by lia. apply IH.
    + apply N.div_lt; lia.
    + eexists _, _. split; [reflexivity|].
      unfold pretty_N_char. repeat case_match; discriminate.
Qed.

Lemma pretty_N_head (x : N) :
  exists c t, pretty x = String c t /\ c <> "/"%char.
Proof.
  unfold pretty, pretty_N. case_decide as Hx.
  - eexists _, _. split; [reflexivity | discriminate].
  - rewrite pretty_N_go_step by lia. apply pretty_N_go_head.
    eexists _, _. split; [reflexivity|].
    unfold pretty_N_char. repeat case_match; discriminate.
Qed.

Lemma pretty_Z_head (z : Z) :
  0 <= z -> exists c t, pretty z = String c t /\ c <> "/"%char.
Proof.
  intros Hz. destruct z as [|p|p]; [|apply (pretty_N_head (Npos p))|lia].
  eexists _, _. split; [reflexivity | discriminate].
Qed.

(** X5: an anonymous capture always stays under the captured-data
    directory: for a blank id the path is the directory, a slash where one
    is needed, the decimal fingerprint and the extension. *)
Theorem fingerprint_path_under_dir (h : DataFrame -> list Z)
    (df : DataFrame) (dir i : string) :
  truthy (strip i) = false ->
  output_file_path h df dir i
  = join_prefix dir ++ pretty (uint64_sum (h df)) ++ ".parquet".
Proof.
  intros Hi. unfold output_file_path, filename. rewrite Hi.
  apply join_relative.
  destruct (pretty_Z_head (uint64_sum (h df)))
    as (c & t & -> & Hc); [apply uint64_sum_range|].
  cbn. apply Ascii.eqb_neq. exact Hc.
Qed.

Lemma fingerprint_path_under_dir_witness :
  truthy (strip "  ") = false /\
  output_file_path sample_hash sample_features "data/captured" "  "
  = "data/captured/2.parquet".
Proof.
  split; [reflexivity|].
  rewrite (fingerprint_path_under_dir sample_hash sample_features
             "data/captured" "  " eq_refl).
  vm_compute. reflexivity.
Defined.

(** ** What a capture changes *)

(** X6: [save_request_data] touches the capture store at its own path and
    nowhere else, and leaves the log, the generator and the clock alone; a
    call that raises leaves the whole store as it was, and a call that
    returns has put the table at the path it returns. *)
Theorem save_request_data_frame (h : DataFrame -> list Z) (df : DataFrame)
    (dir i : string) (w : World) :
  let path := output_file_path h df dir i in
  let out := save_request_data h df dir i w in
  (forall p, p <> path -> files out.2 !! p = files w !! p) /\
  log out.2 = log w /\ rng out.2 = rng w /\ clock out.2 = clock w /\
  (forall e, out.1 = inl e ->
     write_error w path df = Some e /\ files out.2 = files w) /\
  (forall p, out.1 = inr p ->
     p = path /\ files out.2 !! p = Some df).
Proof.
  cbv zeta. rewrite save_request_data_run. cbv zeta.
  destruct (write_error w _ _) as [e|]; cbn.
  - split; [reflexivity|]. split; [reflexivity|]. split; [reflexivity|].
    split; [reflexivity|]. split; [|discriminate].
    intros e' [= <-]. split; reflexivity.
  - split; [intros p Hp; apply lookup_insert_ne; congruence|].
    split; [reflexivity|]. split; [reflexivity|]. split; [reflexivity|].
    split; [discriminate|].
    intros p [= <-]. split; [reflexivity | apply lookup_insert_eq].
Qed.

(** X7: a second capture at the path of a first one replaces it: after
    both, the store is what the second capture alone would have left. So
    a repeated id keeps the last table, and repeating an anonymous request
    changes nothing. *)
Theorem second_capture_wins (h : DataFrame -> list Z) (df1 df2 : DataFrame)
    (dir i1 i2 : string) (w : World) :
  let path := output_file_path h df2 dir i2 in
  output_file_path h df1 dir i1 = path ->
  write_error w path df1 = None ->
  write_error w path df2 = None ->
  let out := (save_request_data h df1 dir i1;;
              save_request_data h df2 dir i2) w in
  out.1 = inr path /\
  files out.2 = <[path := df2]> (files w) /\
  files out.2 = files (save_request_data h df2 dir i2 w).2.
Proof.
  cbv zeta. intros Hp Hw1 Hw2.
  cbv [mbind Py_bind]. rewrite (save_request_data_run h df1). cbv zeta.
  rewrite Hp, Hw1. rewrite !save_request_data_run. cbv zeta.
  cbn [write_error set_files set_trace files]. rewrite Hw2. cbn.
  rewrite insert_insert_eq. repeat split.
Qed.

Lemma second_capture_wins_witness :
  let w := sample_world (fun _ => true) in
  let df2 := mkDataFrame ["cat"; "num"] [[SInt 1; SInt 7]] in
  let out := (save_request_data sample_hash sample_features "data/captured"
                "r1";;
              save_request_data sample_hash df2 "data/captured" "r1") w in
  out.1 = inr "data/captured/r1.parquet" /\
  files out.2 = <["data/captured/r1.parquet" := df2]> ∅.
Proof.
  cbv zeta.
  destruct (second_capture_wins sample_hash sample_features
              (mkDataFrame ["cat"; "num"] [[SInt 1; SInt 7]])
              "data/captured" "r1" "r1" (sample_world (fun _ => true))
              eq_refl eq_refl eq_refl) as (H1 & H2 & _).
  split; [exact H1 | exact H2].
Defined.

(** ** What a request leaves behind *)

(** X8: when [predict] returns a result, the table it captured is the
    table it scored: the capture store holds, at the request's path, the
    very feature table the model's predictions were computed from, and no
    other file of the store has changed. *)
Theorem predict_stores_what_it_scores (h : DataFrame -> list Z) (data : Data)
    (prob : string) (st st' : State) (r : PredictionResult) :
  predict h data prob st = (inr r, st') ->
  exists fdf pc m,
    prob_config (self st) !! prob = Some pc /\
    model (self st) !! prob = Some m /\
    let path := output_file_path h fdf (captured_data_dir pc) (data_id data) in
    files (world st') !! path = Some fdf /\
    m fdf = inr (predictions r) /\
    (forall p, p <> path -> files (world st') !! p = files (world st) !! p).
Proof.
  unfold predict. rewrite predict_with_cases.
  destruct (preprocess data prob st) as [[e|fdf] st1] eqn:Hpre;
    [discriminate|].
  destruct (preprocess_inr _ _ _ _ _ Hpre) as [-> _].
  cbn [self called world write_error set_trace].
  destruct (prob_config (self st) !! prob) as [pc|]; [|discriminate].
  cbv zeta. destruct (write_error _ _ _); [discriminate|].
  destruct (model (self st) !! prob) as [m|]; [|discriminate].
  destruct (m fdf) as [e|preds] eqn:Hpreds; [discriminate|].
  rewrite detect_drift_run. intros [= <- <-].
  exists fdf, pc, m. split; [reflexivity|]. split; [reflexivity|].
  cbn. split; [apply lookup_insert_eq|]. split; [exact Hpreds|].
  intros p Hp. apply lookup_insert_ne. congruence.
Qed.

Lemma predict_stores_what_it_scores_witness :
  exists st',
    predict sample_hash sample_request "prob-1" (sample_state (fun _ => true))
    = (inr (mkPredictionResult "r1" [SInt 5] 0), st') /\
    files (world st') !! "data/captured/r1.parquet" = Some sample_features.
Proof.
  eexists. split; [vm_compute; reflexivity|].
  match goal with
  | |- files (world ?s) !! _ = _ =>
      destruct (predict_stores_what_it_scores sample_hash sample_request
                  "prob-1" (sample_state (fun _ => true)) s
                  (mkPredictionResult "r1" [SInt 5] 0))
        as (fdf & pc & m & Hpc & Hm & Hfile & _)
  end.
  - vm_compute. reflexivity.
  - vm_compute. reflexivity.
Defined.

(** X9: the capture comes before the model. When the model is missing for
    the problem or raises, [predict] raises that error after the feature
    table has been stored: the file stays behind, while the drift check is
    not reached, no random draw is used and nothing is logged. *)
Theorem model_failure_leaves_capture (h : DataFrame -> list Z) (data : Data)
    (prob : string) (st st1 : State) (fdf : DataFrame) (pc : ProblemConfig)
    (e : Exception) :
  preprocess data prob st = (inr fdf, st1) ->
  prob_config (self st) !! prob = Some pc ->
  let path := output_file_path h fdf (captured_data_dir pc) (data_id data) in
  write_error (world st) path fdf = None ->
  (model (self st) !! prob = None /\ e = KeyError prob) \/
  (exists m, model (self st) !! prob = Some m /\ m fdf = inl e) ->
  let out := predict h data prob st in
  out.1 = inl e /\
  files (world out.2) !! path = Some fdf /\
  (CallDetectDrift ∉ trace (world st) ->
   CallDetectDrift ∉ trace (world out.2)) /\
  rng (world out.2) = rng (world st) /\
  log (world out.2) = log (world st).
Proof.
  intros Hpre Hpc path Hw Hmodel out. subst out. unfold predict.
  destruct (preprocess_inr _ _ _ _ _ Hpre) as [-> _].
  rewrite predict_with_cases, Hpre.
  cbn [self world called write_error set_trace]. rewrite Hpc. cbv zeta.
  fold path. rewrite Hw.
  destruct Hmodel as [[Hm ->]|(m & Hm & Hpreds)]; rewrite Hm;
    [|rewrite Hpreds]; cbn.
  all: split; [reflexivity|]; split; [apply lookup_insert_eq|].
  all: split; [|split; reflexivity].
  all: intros Hnot Hin; apply Hnot.
  all: repeat (apply elem_of_app in Hin as [Hin|Hin];
               [|apply list_elem_of_singleton in Hin; discriminate Hin]).
  all: exact Hin.
Qed.

Lemma model_failure_leaves_capture_witness :
  let st := mkState
              (mkModelPredictor ∅ (config sample_service)
                 (category_index sample_service) (prob_config sample_service))
              (sample_world (fun _ => true)) in
  let out := predict sample_hash sample_request "prob-1" st in
  out.1 = inl (KeyError "prob-1") /\
  files (world out.2) !! "data/captured/r1.parquet" = Some sample_features.
Proof.
  cbv zeta.
  destruct (model_failure_leaves_capture sample_hash sample_request "prob-1"
              (mkState
                 (mkModelPredictor ∅ (config sample_service)
                    (category_index sample_service)
                    (prob_config sample_service))
                 (sample_world (fun _ => true)))
              (called CallTransform
                 (mkState
                    (mkModelPredictor ∅ (config sample_service)
                       (category_index sample_service)
                       (prob_config sample_service))
                    (sample_world (fun _ => true))))
              sample_features sample_prob_config (KeyError "prob-1"))
    as (H1 & H2 & _).
  - vm_compute. reflexivity.
  - reflexivity.
  - reflexivity.
  - left. split; reflexivity.
  - split; [exact H1 | exact H2].
Defined.


(** ** Startup and the endpoint *)

Lemma config_file_path_prob1 :
  config_file_path_specific !! "prob-1" = Some "prob-1/model-1.yaml".
Proof. apply lookup_insert_eq. Qed.

(** X11: [__init__] succeeds exactly when the YAML file is found at
    [os.path.join(config_file_path, "prob-1/model-1.yaml")], the problem
    config and the category index load, and the registry has a model at
    ["models:/<model_name>/<model_version>"]. The service then holds
    these four artifacts under "prob-1" and nothing else, and the config
    has been logged once. *)
Theorem init_succeeds_iff (env : Artifacts) (config_file_path : string)
    (w w' : World) (s : ModelPredictor) :
  init env config_file_path w = (inr s, w') <->
  exists cfg pc ci m,
    yaml_files env !! os_path_join config_file_path ["prob-1/model-1.yaml"]
    = Some cfg /\
    create_prob_config env (phase_id cfg) (prob_id cfg) = inr pc /\
    load_category_index env pc = inr ci /\
    mlflow_models env !! model_uri cfg = Some m /\
    s = mkModelPredictor (<["prob-1" := m]> ∅) (<["prob-1" := cfg]> ∅)
          (<["prob-1" := ci]> ∅) (<["prob-1" := pc]> ∅) /\
    w' = set_log (log w ++ [LogModelConfig cfg]) w.
Proof.
  unfold init, for_each, init_prob, model_uri.
  cbv [mbind Py_bind mret Py_ret getitem open_yaml load_model pure_call
       logging_info raise].
  rewrite config_file_path_prob1. split.
  - destruct (yaml_files env !! _) as [cfg|]; [|discriminate].
    destruct (create_prob_config env _ _) as [e|pc] eqn:Hpc; [discriminate|].
    destruct (load_category_index env pc) as [e|ci] eqn:Hci; [discriminate|].
    destruct (mlflow_models env !! _) as [m|] eqn:Hm; [|discriminate].
    intros [= <- <-]. exists cfg, pc, ci, m. repeat split; assumption.
  - intros (cfg & pc & ci & m & -> & -> & -> & -> & -> & ->). reflexivity.
Qed.

Lemma init_succeeds_iff_witness :
  exists w',
    init sample_env "config" (sample_world (fun _ => true))
    = (inr sample_service, w').
Proof.
  eexists.
  apply (proj2 (init_succeeds_iff sample_env "config"
                  (sample_world (fun _ => true)) _ sample_service)).
  exists sample_config, sample_prob_config, sample_index, echo_model.
  repeat split; reflexivity.
Defined.

(** X12: how [__init__] fails. A missing YAML file raises before anything
    is logged; every later failure (problem config, category index,
    model) raises after the config has been logged; in each case the
    error is the one of the step that failed and no service is built. *)
Theorem init_failure_cases (env : Artifacts) (config_file_path : string)
    (w w' : World) (e : Exception) :
  let path := os_path_join config_file_path ["prob-1/model-1.yaml"] in
  init env config_file_path w = (inl e, w') ->
  (yaml_files env !! path = None /\ e = FileNotFoundError path /\ w' = w) \/
  (exists cfg,
     yaml_files env !! path = Some cfg /\
     w' = set_log (log w ++ [LogModelConfig cfg]) w /\
     (create_prob_config env (phase_id cfg) (prob_id cfg) = inl e \/
      exists pc,
        create_prob_config env (phase_id cfg) (prob_id cfg) = inr pc /\
        (load_category_index env pc = inl e \/
         (mlflow_models env !! model_uri cfg = None /\
          e = RuntimeError (model_uri cfg))))).
Proof.
  cbv zeta. unfold init, for_each, init_prob, model_uri.
  cbv [mbind Py_bind mret Py_ret getitem open_yaml load_model pure_call
       logging_info raise].
  rewrite config_file_path_prob1.
  destruct (yaml_files env !! _) as [cfg|].
  2:{ intros [= <- <-]. left. repeat split. }
  destruct (create_prob_config env _ _) as [e1|pc] eqn:Hpc.
  { intros [= <- <-]. right. exists cfg. split; [reflexivity|].
    split; [reflexivity|]. left. exact Hpc. }
  destruct (load_category_index env pc) as [e1|ci] eqn:Hci.
  { intros [= <- <-]. right. exists cfg. split; [reflexivity|].
    split; [reflexivity|]. right. exists pc.
    split; [exact Hpc|]. left. exact Hci. }
  destruct (mlflow_models env !! _) as [m|] eqn:Hm; [discriminate|].
  intros [= <- <-]. right. exists cfg. split; [reflexivity|].
  split; [reflexivity|]. right. exists pc.
  split; [exact Hpc|]. right. split; [exact Hm | reflexivity].
Qed.

Lemma init_failure_cases_witness :
  let w := sample_world (fun _ => true) in
  init sample_env "elsewhere" w
  = (inl (FileNotFoundError "elsewhere/prob-1/model-1.yaml"), w).
Proof.
  cbv zeta.
  destruct (init sample_env "elsewhere" (sample_world (fun _ => true)))
    as [[e|s] w'] eqn:Hinit; [|vm_compute in Hinit; discriminate Hinit].
  destruct (init_failure_cases sample_env "elsewhere"
              (sample_world (fun _ => true)) w' e Hinit)
    as [(_ & -> & ->)|(cfg & Hyaml & _)].
  - reflexivity.
  - vm_compute in Hyaml. discriminate Hyaml.
Defined.




(** ** The raw table and the store over a whole request *)





(** X15: over a whole request, whatever its outcome, [predict] changes
    the capture store at one path at most, and never removes a file. *)
Theorem predict_store_frame (h : DataFrame -> list Z) (data : Data)
    (prob : string) (st : State) :
  let out := predict h data prob st in
  exists path,
    (forall p, p <> path ->
       files (world out.2) !! p = files (world st) !! p) /\
    (forall p, is_Some (files (world st) !! p) ->
       is_Some (files (world out.2) !! p)).
Proof.
  cbv zeta. unfold predict. rewrite predict_with_cases, preprocess_cases.
  assert (Hsame : forall st' : State,
    files (world st') = files (world st) ->
    exists path : string,
      (forall p, p <> path -> files (world st') !! p = files (world st) !! p)
      /\ (forall p, is_Some (files (world st) !! p) ->
                    is_Some (files (world st') !! p))).
  { intros st' ->. exists EmptyString. split; auto. }
  assert (Hput : forall (st' : State) (path : string) (df : DataFrame),
    files (world st') = <[path := df]> (files (world st)) ->
    exists path : string,
      (forall p, p <> path -> files (world st') !! p = files (world st) !! p)
      /\ (forall p, is_Some (files (world st) !! p) ->
                    is_Some (files (world st') !! p))).
  { intros st' path df ->. exists path. split.
    - intros p Hp. apply lookup_insert_ne. congruence.
    - intros p Hp. destruct (decide (path = p)) as [->|Hne].
      + rewrite lookup_insert_eq. eauto.
      + rewrite lookup_insert_ne by exact Hne. exact Hp. }
  destruct (pd_DataFrame _ _) as [e|raw_df]; [apply Hsame; reflexivity|].
  destruct (prob_config (self st) !! prob) as [pc|] eqn:Hpc;
    [|apply Hsame; reflexivity].
  destruct (category_index (self st) !! prob) as [ci|];
    [|apply Hsame; reflexivity].
  destruct (RawDataProcessor1.apply_category_features _ _ _) as [e|fdf];
    [apply Hsame; reflexivity|].
  cbn [self called world write_error set_trace]. rewrite Hpc. cbv zeta.
  destruct (write_error _ _ _); [apply Hsame; reflexivity|].
  destruct (model (self st) !! prob) as [m|];
    [|eapply Hput; reflexivity].
  destruct (m fdf) as [e|preds]; [eapply Hput; reflexivity|].
  rewrite detect_drift_run. eapply Hput. reflexivity.
Qed.
